(** * ANTARES filter development kit: a shallow embedding of the notebook
    [05_Contrib/TimeDomain/AntaresDevKit/AntaresFilterDevKit.ipynb].

    The notebook defines the science filters [high_snr], [extragalactic],
    [nuclear_transient] and [in_m31] and the batch driver [run_many].  They run
    against the [LocusData] object and the [run_stage] driver that the notebook
    imports from the [antares] package; those are modelled below from the
    specification of the filter execution context (their definitions say so).

    Python values are modelled by [pyval]: ints are [Z], floats are IEEE binary64
    primitive floats (Python's [float]), strings are [string], [None], and lists
    (the non-scalar value used by the specification). *)

From Stdlib Require Import ZArith List Bool String Floats Lia.
Import ListNotations.

#[local] Set Warnings "-register-all -inexact-float".
Open Scope string_scope.
Open Scope list_scope.
Open Scope Z_scope.

(** ** Python values *)

Inductive pyval : Type :=
| PInt (z : Z)
| PFloat (x : float)
| PStr (s : string)
| PNone
| PList (xs : list pyval).

(** Exceptions that the modelled code can raise. *)
Inductive pyexn : Type :=
| TypeError
| ZeroDivisionError
| OverflowError
| KeyError (k : string)
| InvalidPropertyTypeError
| UnknownFieldError (f : string)
| UserException (msg : string).

(** A Python computation either returns a value or raises. *)
Inductive pyres (A : Type) : Type :=
| Ok (a : A)
| Raise (e : pyexn).
Arguments Ok {A} a.
Arguments Raise {A} e.

Definition res_bind {A B} (r : pyres A) (k : A -> pyres B) : pyres B :=
  match r with Ok a => k a | Raise e => Raise e end.

(** ** Numbers *)

(** [float(z)] for an int [z] (CPython's [PyLong_AsDouble]): round to nearest,
    ties to even; [OverflowError] when the rounded value is out of range. *)
Definition float_of_Z (z : Z) : pyres float :=
  match SpecFloat.binary_normalize FloatOps.prec FloatOps.emax z 0 false with
  | SpecFloat.S754_infinity _ => Raise OverflowError
  | sf => Ok (SF2Prim sf)
  end.

(** The exact comparison of a float with an int that CPython's
    [float_richcompare] performs; [None] for a NaN. *)
Definition float_cmp_int (x : float) (z : Z) : option comparison :=
  match Prim2SF x with
  | SpecFloat.S754_nan => None
  | SpecFloat.S754_zero _ => Some (Z.compare 0 z)
  | SpecFloat.S754_infinity s => Some (if s then Lt else Gt)
  | SpecFloat.S754_finite s m e =>
      let mz := if s then Z.neg m else Z.pos m in
      if 0 <=? e then Some (Z.compare (mz * 2 ^ e) z)
      else Some (Z.compare mz (z * 2 ^ (- e)))
  end.

(** Python's [a == b]. *)
Fixpoint py_eq (a b : pyval) : bool :=
  match a, b with
  | PInt x, PInt y => Z.eqb x y
  | PFloat x, PFloat y => PrimFloat.eqb x y
  | PFloat x, PInt y => match float_cmp_int x y with Some Eq => true | _ => false end
  | PInt x, PFloat y => match float_cmp_int y x with Some Eq => true | _ => false end
  | PStr s, PStr t => String.eqb s t
  | PNone, PNone => true
  | PList xs, PList ys =>
      (fix go (xs ys : list pyval) : bool :=
         match xs, ys with
         | [], [] => true
         | x :: xs', y :: ys' => py_eq x y && go xs' ys'
         | _, _ => false
         end) xs ys
  | _, _ => false
  end.

(** Python's [a < b]: numbers compare by value (an int against a float
    exactly), strings lexicographically, lists lexicographically; any other
    pair raises [TypeError]. *)
Fixpoint py_lt (a b : pyval) : pyres bool :=
  match a, b with
  | PInt x, PInt y => Ok (Z.ltb x y)
  | PFloat x, PFloat y => Ok (PrimFloat.ltb x y)
  | PFloat x, PInt y => Ok (match float_cmp_int x y with Some Lt => true | _ => false end)
  | PInt x, PFloat y => Ok (match float_cmp_int y x with Some Gt => true | _ => false end)
  | PStr s, PStr t => Ok (match String.compare s t with Lt => true | _ => false end)
  | PList xs, PList ys =>
      (fix go (xs ys : list pyval) : pyres bool :=
         match xs, ys with
         | x :: xs', y :: ys' => if py_eq x y then go xs' ys' else py_lt x y
         | [], _ :: _ => Ok true
         | _, [] => Ok false
         end) xs ys
  | _, _ => Raise TypeError
  end.

(** Python's [a > b]. *)
Definition py_gt (a b : pyval) : pyres bool := py_lt b a.

(** Python's [a - b] on numbers; an int operand of a float subtraction is
    converted with [float_of_Z]. *)
Definition py_sub (a b : pyval) : pyres pyval :=
  match a, b with
  | PInt x, PInt y => Ok (PInt (x - y))
  | PFloat x, PFloat y => Ok (PFloat (x - y)%float)
  | PFloat x, PInt y => res_bind (float_of_Z y) (fun y' => Ok (PFloat (x - y')%float))
  | PInt x, PFloat y => res_bind (float_of_Z x) (fun x' => Ok (PFloat (x' - y)%float))
  | _, _ => Raise TypeError
  end.

(** Python's [x / b] for a float [x] (CPython's [float_div]): an int divisor is
    converted to float first; a zero divisor raises [ZeroDivisionError]. *)
Definition float_truediv (x : float) (b : pyval) : pyres pyval :=
  let div y := if PrimFloat.eqb y 0%float then Raise ZeroDivisionError
               else Ok (PFloat (x / y)%float) in
  match b with
  | PFloat y => div y
  | PInt z => res_bind (float_of_Z z) div
  | _ => Raise TypeError
  end.

(** ** Dicts with string keys

    A Python dict as an association list in insertion order; the code only
    builds dicts whose keys are distinct. *)

Definition pydict := list (string * pyval).

Fixpoint dict_get (k : string) (d : pydict) : option pyval :=
  match d with
  | [] => None
  | (k', v) :: d' => if String.eqb k k' then Some v else dict_get k d'
  end.

(** [d[k]]. *)
Definition dict_getitem (d : pydict) (k : string) : pyres pyval :=
  match dict_get k d with Some v => Ok v | None => Raise (KeyError k) end.

(** [d[k] = v]: an existing key keeps its position and takes the new value, a
    new key is appended. *)
Fixpoint dict_set (k : string) (v : pyval) (d : pydict) : pydict :=
  match d with
  | [] => [(k, v)]
  | (k', v') :: d' =>
      if String.eqb k k' then (k', v) :: d' else (k', v') :: dict_set k v d'
  end.

(** [{**d1, **d2}]. *)
Definition dict_update (d1 d2 : pydict) : pydict :=
  fold_left (fun d kv => dict_set (fst kv) (snd kv) d) d2 d1.

(** [{1: a, 2: b}.get(key, None)] for a dict with int keys: a key is found when
    it is [==] to the looked-up value (ints and floats hash consistently with
    [==]); a list is unhashable. *)
Definition int_dict_get (d : list (Z * float)) (key : pyval) : pyres pyval :=
  match key with
  | PList _ => Raise TypeError
  | _ =>
      match find (fun kv => py_eq (PInt (fst kv)) key) d with
      | Some (_, v) => Ok (PFloat v)
      | None => Ok PNone
      end
  end.

(** ** Computations with state and exceptions

    [M S A] threads a state [S] and may raise; an exception keeps the state
    changes made before it, as Python's mutations do. *)

Definition M (S A : Type) : Type := S -> pyres A * S.

Definition ret {S A} (a : A) : M S A := fun s => (Ok a, s).

Definition bind {S A B} (m : M S A) (k : A -> M S B) : M S B :=
  fun s => match m s with
           | (Ok a, s') => k a s'
           | (Raise e, s') => (Raise e, s')
           end.

Definition lift {S A} (r : pyres A) : M S A := fun s => (r, s).

Notation "x <- m ;; k" := (bind m (fun x => k))
  (at level 61, m at next level, right associativity).
Notation "m ;; k" := (bind m (fun _ => k)) (at level 61, right associativity).

(** A list comprehension [[g(x) for x in xs]]: the first exception aborts it. *)
Fixpoint mapM {S A B} (g : A -> M S B) (xs : list A) : M S (list B) :=
  match xs with
  | [] => ret []
  | x :: xs' => y <- g x ;; ys <- mapM g xs' ;; ret (y :: ys)
  end.

(** ** The filter execution context (the [LocusData] object) *)

(** Modelled from the spec: the measurement of the [antares] package, which the
    notebook uses and this repository does not contain.  Two reserved fields,
    the event id ([alert_id]) and the timestamp ([mjd]), and a mapping from
    field names to values. *)
Record measurement : Type := {
  m_alert_id : Z;
  m_mjd : float;
  m_fields : pydict
}.

(** A catalog match record: an opaque mapping of attribute names to values. *)
Definition match_record := pydict.

(** Modelled from the spec: the [LocusData] object of the [antares] package.
    The triggering measurement, the measurement history, the catalog match set
    (catalog name to its match records), and the two per-invocation outputs:
    the new properties and the requested streams. *)
Record locus_data : Type := {
  ld_alert : measurement;
  ld_time_series : list measurement;
  ld_matches : list (string * list match_record);
  ld_new_properties : pydict;
  ld_new_streams : list string
}.

(** The state a filter runs in: its [LocusData] and what it printed. *)
Record fstate : Type := {
  ctx : locus_data;
  stdout : list string
}.

Definition FilterM := M fstate.

(** A filter is a Python function of the [LocusData]: [def f(ld): ...]. *)
Definition filter_fn := FilterM unit.

Definition with_ctx (s : fstate) (ld : locus_data) : fstate :=
  {| ctx := ld; stdout := stdout s |}.

Definition set_new_properties (ld : locus_data) (d : pydict) : locus_data :=
  {| ld_alert := ld_alert ld; ld_time_series := ld_time_series ld;
     ld_matches := ld_matches ld; ld_new_properties := d;
     ld_new_streams := ld_new_streams ld |}.

Definition set_new_streams (ld : locus_data) (ss : list string) : locus_data :=
  {| ld_alert := ld_alert ld; ld_time_series := ld_time_series ld;
     ld_matches := ld_matches ld; ld_new_properties := ld_new_properties ld;
     ld_new_streams := ss |}.

(** [print(msg)]. *)
Definition print (msg : string) : FilterM unit :=
  fun s => (Ok tt, {| ctx := ctx s; stdout := stdout s ++ [msg] |}).

(** Modelled from the spec: [ld.get_properties()], a fresh dict of the
    triggering measurement's fields updated with the properties already set
    in this invocation. *)
Definition get_properties : FilterM pydict :=
  fun s => (Ok (dict_update (m_fields (ld_alert (ctx s))) (ld_new_properties (ctx s))), s).

(** Modelled from the spec: [ld.get_astro_object_matches()] returns the
    precomputed catalog match set unchanged. *)
Definition get_astro_object_matches : FilterM (list (string * list match_record)) :=
  fun s => (Ok (ld_matches (ctx s)), s).

(** Modelled from the spec: [ld.send_to_stream(name)], an idempotent insert
    into the requested streams.  The check of the name against the stream
    registry is deferred to the commit of the result, as the specification
    allows (and as the notebook says: stream names are checked when a filter
    is submitted). *)
Definition add_stream (name : string) (ld : locus_data) : locus_data :=
  let ss := ld_new_streams ld in
  set_new_streams ld (if existsb (String.eqb name) ss then ss else ss ++ [name]).

Definition send_to_stream (name : string) : FilterM unit :=
  fun s => (Ok tt, with_ctx s (add_stream name (ctx s))).

(** The three scalar kinds a property may have. *)
Definition is_scalar (v : pyval) : bool :=
  match v with PInt _ | PFloat _ | PStr _ => true | _ => false end.

(** Modelled from the spec: [ld.set_property(name, value)], an upsert into the
    new properties; a value of another kind raises [InvalidPropertyTypeError]
    and changes nothing. *)
Definition set_property (name : string) (value : pyval) : FilterM unit :=
  fun s =>
    if is_scalar value then
      (Ok tt, with_ctx s (set_new_properties (ctx s)
                            (dict_set name value (ld_new_properties (ctx s)))))
    else (Raise InvalidPropertyTypeError, s).

(** ** The science filters of the notebook *)

(** [snr_thresholds = {1: 50.0, 2: 55.0}]. *)
Definition snr_thresholds : list (Z * float) := [(1, 50.0%float); (2, 55.0%float)].

Definition is_none (v : pyval) : bool := match v with PNone => true | _ => false end.

(** [def high_snr(ld)]. *)
Definition high_snr : filter_fn :=
  p <- get_properties ;;
  fid <- lift (dict_getitem p "ztf_fid") ;;
  sigmapsf <- lift (dict_getitem p "ztf_sigmapsf") ;;
  snr <- lift (float_truediv 1.0%float sigmapsf) ;;
  snr_threshold <- lift (int_dict_get snr_thresholds fid) ;;
  if is_none snr_threshold then ret tt
  else b <- lift (py_gt snr snr_threshold) ;;
       if b then send_to_stream "high_snr" else ret tt.

(** [xsc_cats]. *)
Definition xsc_cats : list string :=
  ["2mass_xsc"; "ned"; "nyu_valueadded_gals"; "sdss_gals"; "veron_agn_qso"].

(** [def extragalactic(ld)]: [set(matching_catalog_names) & set(xsc_cats)] is
    truthy when the two sets share a name. *)
Definition extragalactic : filter_fn :=
  ms <- get_astro_object_matches ;;
  let matching_catalog_names := map fst ms in
  if existsb (fun c => existsb (String.eqb c) xsc_cats) matching_catalog_names
  then send_to_stream "extragalactic" else ret tt.

(** [None in (a, b, ...)]: each element is compared by identity, then [==]. *)
Definition none_in (vs : list pyval) : bool := existsb (fun v => py_eq v PNone) vs.

(** [def nuclear_transient(ld)]; the [and] chain short-circuits. *)
Definition nuclear_transient : filter_fn :=
  p <- get_properties ;;
  sgscore <- lift (dict_getitem p "ztf_sgscore1") ;;
  distpsnr <- lift (dict_getitem p "ztf_distpsnr1") ;;
  magpsf <- lift (dict_getitem p "ztf_magpsf") ;;
  magnr <- lift (dict_getitem p "ztf_magnr") ;;
  distnr <- lift (dict_getitem p "ztf_distnr") ;;
  if none_in [distnr; distpsnr; sgscore; magpsf; magnr] then ret tt
  else
    b1 <- lift (py_lt distnr (PFloat 0.6)) ;;
    if negb b1 then ret tt else
    b2 <- lift (py_lt distpsnr (PFloat 1.0)) ;;
    if negb b2 then ret tt else
    b3 <- lift (py_lt sgscore (PFloat 0.3)) ;;
    if negb b3 then ret tt else
    d <- lift (py_sub magpsf magnr) ;;
    b4 <- lift (py_lt d (PFloat 1.5)) ;;
    if b4 then send_to_stream "nuclear_transient" else ret tt.

Definition ra_max : float := 11.434793.
Definition ra_min : float := 9.934793.
Definition dec_max : float := 42.269065.
Definition dec_min : float := 40.269065.

(** [def in_m31(ld)]: [ra_max > ra > ra_min and dec_max > dec > dec_min],
    each chained comparison and the [and] short-circuiting. *)
Definition in_m31 : filter_fn :=
  p <- get_properties ;;
  ra <- lift (dict_getitem p "ra") ;;
  dec <- lift (dict_getitem p "dec") ;;
  b1 <- lift (py_gt (PFloat ra_max) ra) ;;
  if negb b1 then ret tt else
  b2 <- lift (py_gt ra (PFloat ra_min)) ;;
  if negb b2 then ret tt else
  b3 <- lift (py_gt (PFloat dec_max) dec) ;;
  if negb b3 then ret tt else
  b4 <- lift (py_gt dec (PFloat dec_min)) ;;
  if b4 then send_to_stream "in_m31" else ret tt.

(** ** Time series *)

(** The two reserved fields, always the first rows of a time series. *)
Definition reserved_fields : list string := ["alert_id"; "mjd"].

Definition measurement_field (m : measurement) (f : string) : option pyval :=
  if String.eqb f "alert_id" then Some (PInt (m_alert_id m))
  else if String.eqb f "mjd" then Some (PFloat (m_mjd m))
  else dict_get f (m_fields m).

(** A cell of a time series: a value, or the explicit marker of a field the
    measurement does not have. *)
Inductive cell : Type :=
| Present (v : pyval)
| Missing.

Definition cell_of (m : measurement) (f : string) : cell :=
  match measurement_field m f with Some v => Present v | None => Missing end.

(** Equality without coercion: values of different kinds are not equal. *)
Fixpoint val_exact_eqb (a b : pyval) : bool :=
  match a, b with
  | PInt x, PInt y => Z.eqb x y
  | PFloat x, PFloat y => PrimFloat.eqb x y
  | PStr s, PStr t => String.eqb s t
  | PNone, PNone => true
  | PList xs, PList ys =>
      (fix go (xs ys : list pyval) : bool :=
         match xs, ys with
         | [], [] => true
         | x :: xs', y :: ys' => val_exact_eqb x y && go xs' ys'
         | _, _ => false
         end) xs ys
  | _, _ => false
  end.

(** A measurement passes [filters] when every listed field is present and
    equal, without coercion, to the given value. *)
Definition satisfies (filters : pydict) (m : measurement) : bool :=
  forallb (fun fv => match measurement_field m (fst fv) with
                     | Some w => val_exact_eqb w (snd fv)
                     | None => false
                     end) filters.

(** A field name is known when it is reserved or some measurement has it. *)
Definition field_known (history : list measurement) (f : string) : bool :=
  existsb (String.eqb f) reserved_fields
  || existsb (fun m => match dict_get f (m_fields m) with Some _ => true | None => false end)
       history.

(** The table of a time series as the notebook prints it: one row per field
    (the reserved ones first), one column per measurement. *)
Definition time_series_table (fields : list string) (ms : list measurement)
  : list (string * list cell) :=
  map (fun f => (f, map (fun m => cell_of m f) ms)) (reserved_fields ++ fields).

(** Modelled from the spec: [ld.get_time_series('ra', 'dec', ..., filters={...})] of the
    [antares] package: the projection of the measurement history on the
    reserved fields and the requested ones, keeping the measurements that pass
    [filters]; an unknown requested field raises [UnknownFieldError]. *)
Definition get_time_series (fields : list string) (filters : option pydict)
  : FilterM (list (string * list cell)) :=
  fun s =>
    let history := ld_time_series (ctx s) in
    match find (fun f => negb (field_known history f)) fields with
    | Some f => (Raise (UnknownFieldError f), s)
    | None =>
        let ms := match filters with
                  | None => history
                  | Some fl => filter (satisfies fl) history
                  end in
        (Ok (time_series_table fields ms), s)
    end.

(** ** The catalog match set *)

Definition add_match (acc : list (string * list match_record))
    (cm : string * match_record) : list (string * list match_record) :=
  let '(c, r) := cm in
  if existsb (fun e => String.eqb (fst e) c) acc
  then map (fun e => if String.eqb (fst e) c then (fst e, snd e ++ [r]) else e) acc
  else acc ++ [(c, [r])].

(** Modelled from the spec: the catalog match set the upstream data source
    computes from the catalog entries matched to a locus, each with its
    catalog name: the matches grouped by catalog, in order. *)
Definition catalog_match_set (ms : list (string * match_record))
  : list (string * list match_record) :=
  fold_left add_match ms [].

(** ** The driver *)

(** Modelled from the spec: what the upstream data source supplies for an
    alert: the triggering measurement, the history and the matched catalog
    entries. *)
Record locus_input : Type := {
  li_alert : measurement;
  li_history : list measurement;
  li_matches : list (string * match_record)
}.

(** Modelled from the spec: the fresh [LocusData] the [antares] package builds
    for one invocation ([get_locus_data]). *)
Definition make_locus_data (inp : locus_input) : locus_data :=
  {| ld_alert := li_alert inp; ld_time_series := li_history inp;
     ld_matches := catalog_match_set (li_matches inp);
     ld_new_properties := []; ld_new_streams := [] |}.

(** The values of a report. *)
Inductive report_value : Type :=
| RNewProperties (d : pydict)
| RNewStreams (ss : list string)
| RLocusData (ld : locus_data).

(** What one run of a filter yields: a report dict, or the filter's failure. *)
Inductive stage_result : Type :=
| Report (r : list (string * report_value))
| FilterExecutionError (cause : pyexn).

(** The report dict of a run that returned, keyed as the notebook reads it. *)
Definition stage_report (ld : locus_data) : list (string * report_value) :=
  [("new_properties", RNewProperties (ld_new_properties ld));
   ("new_streams", RNewStreams (ld_new_streams ld));
   ("locus_data", RLocusData ld)].

Section Driver.

(** The upstream data source, by alert id. *)
Variable get_locus_input : Z -> locus_input.

Definition get_locus_data (alert_id : Z) : locus_data :=
  make_locus_data (get_locus_input alert_id).

(** The state a filter starts in: a fresh context, nothing printed yet. *)
Definition fresh_state (alert_id : Z) : fstate :=
  {| ctx := get_locus_data alert_id; stdout := [] |}.

(** Modelled from the spec: [run_stage(alert_id, f)] of the [antares] package
    runs [f] once, synchronously, on a fresh context, passes on what [f]
    printed, and returns the report, or a [FilterExecutionError] wrapping the
    exception [f] raised. *)
Definition run_stage (alert_id : Z) (f : filter_fn) : M (list string) stage_result :=
  fun out =>
    let '(r, s) := f (fresh_state alert_id) in
    (Ok (match r with
         | Ok _ => Report (stage_report (ctx s))
         | Raise e => FilterExecutionError e
         end), out ++ stdout s).

(** The alert ids of the test database. *)
Variable get_alert_ids : Z -> list Z.

(** [def run_many(f, n=10): return [run_stage(alert_id, f) for alert_id in
    get_alert_ids(n)]]. *)
Definition run_many (f : filter_fn) (n : Z) : M (list string) (list stage_result) :=
  mapM (fun alert_id => run_stage alert_id f) (get_alert_ids n).

End Driver.

(** What [run_stage] yields for one alert id. *)
Definition stage_outcome (get_locus_input : Z -> locus_input) (f : filter_fn)
    (alert_id : Z) : stage_result :=
  match f (fresh_state get_locus_input alert_id) with
  | (Ok _, s) => Report (stage_report (ctx s))
  | (Raise e, _) => FilterExecutionError e
  end.

(** ** The demonstration filter [example_filter] *)

Section ExampleFilter.

(** [str()] of the objects [example_filter] prints: the properties dict, the
    numpy array of a time series, the dict of catalog matches, the list of
    catalog names and a match record. *)
Variable str_dict : pydict -> string.
Variable str_time_series : list (string * list cell) -> string.
Variable str_matches : list (string * list match_record) -> string.
Variable str_names : list string -> string.

(** [print()] prints an empty line. *)
Definition print_empty : FilterM unit := print EmptyString.

(** [for catalog_name, objects in astro_objects.items(): ...]. *)
Definition print_catalog_matches (ms : list (string * list match_record)) : FilterM unit :=
  fold_right
    (fun cm k =>
       print_empty ;; print (fst cm) ;;
       fold_right (fun obj k' => print (str_dict obj) ;; k') (ret tt) (snd cm) ;;
       k)
    (ret tt) ms.

(** [def example_filter(locus_data)]. *)
Definition example_filter : filter_fn :=
  print "`example_filter` is running..." ;;
  print "locus_data.get_properties()" ;;
  print "-->" ;;
  p <- get_properties ;;
  print (str_dict p) ;;
  print_empty ;;
  print "locus_data.get_time_series('ra', 'dec', 'ztf_fid', 'ztf_magpsf')" ;;
  print "-->" ;;
  ts <- get_time_series ["ra"; "dec"; "ztf_fid"; "ztf_magpsf"] None ;;
  print (str_time_series ts) ;;
  print_empty ;;
  print "locus_data.get_time_series('ra', 'dec', 'ztf_fid', 'ztf_magpsf', filters={'ztf_fid': 2})" ;;
  print "-->" ;;
  ts2 <- get_time_series ["ra"; "dec"; "ztf_fid"; "ztf_magpsf"]
           (Some [("ztf_fid", PInt 2)]) ;;
  print (str_time_series ts2) ;;
  print_empty ;;
  print "locus_data.get_astro_object_matches()" ;;
  print "-->" ;;
  astro_objects <- get_astro_object_matches ;;
  print (str_matches astro_objects) ;;
  print_empty ;;
  print ("found catalog matches from catalogs: " ++ str_names (map fst astro_objects))%string ;;
  print_catalog_matches astro_objects ;;
  set_property "x" (PInt 500) ;;
  set_property "y" (PFloat 3.14) ;;
  set_property "z" (PStr "hello") ;;
  send_to_stream "my_stream" ;;
  print "`example_filter` is finished.".

End ExampleFilter.

(** ** The conditions the science filters test, written as their docstrings
    and the claims about them read them

    A comparison that raises does not hold. *)

(** The dict [ld.get_properties()] returns in state [s]. *)
Definition props_of (s : fstate) : pydict :=
  dict_update (m_fields (ld_alert (ctx s))) (ld_new_properties (ctx s)).

(** [a < b] evaluates to [True]. *)
Definition lt_holds (a b : pyval) : bool :=
  match py_lt a b with Ok b => b | Raise _ => false end.

(** [1.0 / sigmapsf > t] evaluates to [True]. *)
Definition snr_above (sigmapsf : pyval) (t : float) : bool :=
  match float_truediv 1.0%float sigmapsf with
  | Ok snr => lt_holds (PFloat t) snr
  | Raise _ => false
  end.

(** [fid == 1 and 1.0/sigmapsf > 50.0 or fid == 2 and 1.0/sigmapsf > 55.0]. *)
Definition high_snr_cond (fid sigmapsf : pyval) : bool :=
  (py_eq fid (PInt 1) && snr_above sigmapsf 50.0%float)
  || (py_eq fid (PInt 2) && snr_above sigmapsf 55.0%float).

(** All five values are not [None], [distnr < 0.6], [distpsnr < 1.0],
    [sgscore < 0.3] and [magpsf - magnr < 1.5]. *)
Definition nuclear_transient_cond (distnr distpsnr sgscore magpsf magnr : pyval) : bool :=
  negb (is_none distnr) && negb (is_none distpsnr) && negb (is_none sgscore)
  && negb (is_none magpsf) && negb (is_none magnr)
  && lt_holds distnr (PFloat 0.6) && lt_holds distpsnr (PFloat 1.0)
  && lt_holds sgscore (PFloat 0.3)
  && match py_sub magpsf magnr with
     | Ok d => lt_holds d (PFloat 1.5)
     | Raise _ => false
     end.

(** [9.934793 < ra < 11.434793] and [40.269065 < dec < 42.269065], strictly. *)
Definition in_m31_cond (ra dec : pyval) : bool :=
  lt_holds (PFloat 9.934793) ra && lt_holds ra (PFloat 11.434793)
  && lt_holds (PFloat 40.269065) dec && lt_holds dec (PFloat 42.269065).

(** A context for the examples: an alert with the given fields, nothing set. *)
Definition sample_ctx (fields : pydict) : fstate :=
  {| ctx := {| ld_alert := {| m_alert_id := 153505; m_mjd := 58600.5%float;
                              m_fields := fields |};
               ld_time_series := []; ld_matches := [];
               ld_new_properties := []; ld_new_streams := [] |};
     stdout := [] |}.

(** ** Sample data *)

(** The alert of the specification's scenario: two measurements. *)
Definition scenario_m1 : measurement :=
  {| m_alert_id := 1; m_mjd := 100.0%float;
     m_fields := [("fid", PInt 1); ("mag", PFloat 18.0)] |}.

Definition scenario_m2 : measurement :=
  {| m_alert_id := 2; m_mjd := 101.0%float;
     m_fields := [("fid", PInt 2); ("mag", PFloat 17.5)] |}.

Definition scenario_input (alert_id : Z) : locus_input :=
  {| li_alert := scenario_m2; li_history := [scenario_m1; scenario_m2];
     li_matches := [("ned", [("z", PFloat 0.02)]); ("sdss_gals", [])] |}.

Definition scenario_state : fstate := fresh_state scenario_input 2.

(** A filter that raises. *)
Definition raising_filter : filter_fn := lift (Raise (UserException "boom")).

(** Alerts for the science filters. *)
Definition snr_sample : fstate :=
  sample_ctx [("ztf_fid", PInt 1); ("ztf_sigmapsf", PFloat 0.01)].

Definition nuclear_sample : fstate :=
  sample_ctx [("ztf_sgscore1", PFloat 0.1); ("ztf_distpsnr1", PFloat 0.5);
              ("ztf_magpsf", PFloat 18.0); ("ztf_magnr", PInt 17);
              ("ztf_distnr", PFloat 0.2)].

Definition m31_sample : fstate := sample_ctx [("ra", PFloat 10.5); ("dec", PInt 41)].

(** An alert with a two-measurement history of ZTF fields, a property already
    set, a catalog match and some earlier output. *)
Definition ztf_m1 : measurement :=
  {| m_alert_id := 10; m_mjd := 58600.5%float;
     m_fields := [("ra", PFloat 10.7); ("dec", PFloat 41.2); ("ztf_fid", PInt 1);
                  ("ztf_magpsf", PFloat 18.3)] |}.

Definition ztf_m2 : measurement :=
  {| m_alert_id := 11; m_mjd := 58601.5%float;
     m_fields := [("ra", PFloat 10.7); ("dec", PFloat 41.2); ("ztf_fid", PInt 2);
                  ("ztf_magpsf", PFloat 18.1)] |}.

Definition example_state : fstate :=
  {| ctx := {| ld_alert := ztf_m2; ld_time_series := [ztf_m1; ztf_m2];
               ld_matches := catalog_match_set [("ned", [("z", PFloat 0.02)])];
               ld_new_properties := [("y", PFloat 1.0)]; ld_new_streams := [] |};
     stdout := ["earlier output"] |}.

(** How [example_filter] prints its values, for the examples. *)
Definition show_nothing {A : Type} (_ : A) : string := EmptyString.

(** * Proofs *)

(** ** Lemmas on the Python operators *)

Lemma py_eq_int_sym (k : Z) (v : pyval) : py_eq (PInt k) v = py_eq v (PInt k).
Proof. destruct v; simpl; try reflexivity. apply Z.eqb_sym. Qed.

Lemma py_eq_none (v : pyval) : py_eq v PNone = is_none v.
Proof. destruct v; reflexivity. Qed.

Lemma float_cmp_int_eq_unique (x : float) (a b : Z) :
  float_cmp_int x a = Some Eq -> float_cmp_int x b = Some Eq -> a = b.
Proof.
  unfold float_cmp_int. destruct (Prim2SF x) as [ s | s | | s m e ];
    try discriminate; try (destruct s; discriminate).
  - intros Ha Hb. destruct a, b; simpl in *; congruence.
  - destruct (0 <=? e) eqn:He; intros Ha Hb; injection Ha as Ha; injection Hb as Hb;
      apply Z.compare_eq in Ha, Hb.
    + congruence.
    + assert (Hp : 2 ^ (- e) <> 0) by (apply Z.leb_gt in He; apply Z.pow_nonzero; lia).
      apply (Z.mul_cancel_r a b (2 ^ (- e))); congruence.
Qed.

Lemma py_eq_int_unique (v : pyval) (a b : Z) :
  py_eq v (PInt a) = true -> py_eq v (PInt b) = true -> a = b.
Proof.
  destruct v as [z | x | | | ]; simpl; try discriminate.
  - intros Ha Hb. apply Z.eqb_eq in Ha, Hb. congruence.
  - destruct (float_cmp_int x a) as [[] | ] eqn:Ha; try discriminate.
    destruct (float_cmp_int x b) as [[] | ] eqn:Hb; try discriminate.
    intros _ _. eapply float_cmp_int_eq_unique; eassumption.
Qed.

(** [snr_thresholds.get(fid, None)]. *)
Lemma snr_thresholds_get (fid : pyval) :
  int_dict_get snr_thresholds fid =
  match fid with
  | PList _ => Raise TypeError
  | _ => Ok (if py_eq fid (PInt 1) then PFloat 50.0
             else if py_eq fid (PInt 2) then PFloat 55.0 else PNone)
  end.
Proof.
  unfold int_dict_get.
  destruct fid; [ | | | | reflexivity ]; cbn [find snr_thresholds fst];
    rewrite (py_eq_int_sym 1), (py_eq_int_sym 2);
    match goal with |- context [py_eq ?v (PInt 1)] => destruct (py_eq v (PInt 1)), (py_eq v (PInt 2)) end; reflexivity.
Qed.

Lemma float_truediv_float (x : float) (b v : pyval) :
  float_truediv x b = Ok v -> exists y, v = PFloat y.
Proof.
  unfold float_truediv. destruct b; simpl; try discriminate.
  - destruct (float_of_Z z); simpl; try discriminate.
    destruct (PrimFloat.eqb a 0%float); try discriminate.
    intros H; injection H as <-; eauto.
  - destruct (PrimFloat.eqb x0 0%float); try discriminate.
    intros H; injection H as <-; eauto.
Qed.

(** ** The science filters *)

(** C8: for every properties mapping containing [ztf_fid] and [ztf_sigmapsf],
    [high_snr] requests the stream 'high_snr' exactly when [ztf_fid] is 1 and
    [1.0/ztf_sigmapsf > 50.0], or [ztf_fid] is 2 and [1.0/ztf_sigmapsf > 55.0];
    otherwise the context is left as it was, in particular for any other
    [ztf_fid] no stream is requested and no property is set. *)
Theorem high_snr_requests_stream (s : fstate) (fid sigmapsf : pyval) :
  dict_get "ztf_fid" (props_of s) = Some fid ->
  dict_get "ztf_sigmapsf" (props_of s) = Some sigmapsf ->
  ctx (snd (high_snr s)) =
    (if high_snr_cond fid sigmapsf then add_stream "high_snr" (ctx s) else ctx s)
  /\ (py_eq fid (PInt 1) = false -> py_eq fid (PInt 2) = false ->
      ctx (snd (high_snr s)) = ctx s).
Proof.
  intros Hfid Hsig.
  assert (Hrun : ctx (snd (high_snr s)) =
    (if high_snr_cond fid sigmapsf then add_stream "high_snr" (ctx s) else ctx s)).
  { unfold high_snr, bind, lift, ret, get_properties, send_to_stream.
    change (dict_update (m_fields (ld_alert (ctx s))) (ld_new_properties (ctx s)))
      with (props_of s).
    unfold dict_getitem. rewrite Hfid, Hsig.
    unfold high_snr_cond, snr_above.
    destruct (float_truediv 1.0%float sigmapsf) as [snr | e] eqn:Hd;
      [ | rewrite !andb_false_r; reflexivity ].
    destruct (float_truediv_float _ _ _ Hd) as [y ->].
    rewrite snr_thresholds_get.
    destruct fid as [z | x | str | | xs]; [ | | | | reflexivity ];
      (destruct (py_eq _ (PInt 1)) eqn:E1;
      [ assert (E2 : py_eq _ (PInt 2) = false)
          by (destruct (py_eq _ (PInt 2)) eqn:E2; [ | reflexivity ];
              pose proof (py_eq_int_unique _ _ _ E1 E2); discriminate);
        rewrite E2; simpl; unfold py_gt, lt_holds; simpl;
        destruct (PrimFloat.ltb 50.0 y); reflexivity
      | destruct (py_eq _ (PInt 2)) eqn:E2; simpl; unfold py_gt, lt_holds; simpl;
        [ destruct (PrimFloat.ltb 55.0 y); reflexivity | reflexivity ] ]). }
  split; [ exact Hrun | ].
  intros E1 E2. rewrite Hrun. unfold high_snr_cond. rewrite E1, E2. reflexivity.
Qed.

(** C9: for every properties mapping holding the five fields, [nuclear_transient]
    requests the stream 'nuclear_transient' exactly when all five are not
    [None], [ztf_distnr < 0.6], [ztf_distpsnr1 < 1.0], [ztf_sgscore1 < 0.3] and
    [ztf_magpsf - ztf_magnr < 1.5]; when one of the five is [None] it returns
    without changing anything. *)
Theorem nuclear_transient_requests_stream
    (s : fstate) (sgscore distpsnr magpsf magnr distnr : pyval) :
  dict_get "ztf_sgscore1" (props_of s) = Some sgscore ->
  dict_get "ztf_distpsnr1" (props_of s) = Some distpsnr ->
  dict_get "ztf_magpsf" (props_of s) = Some magpsf ->
  dict_get "ztf_magnr" (props_of s) = Some magnr ->
  dict_get "ztf_distnr" (props_of s) = Some distnr ->
  ctx (snd (nuclear_transient s)) =
    (if nuclear_transient_cond distnr distpsnr sgscore magpsf magnr
     then add_stream "nuclear_transient" (ctx s) else ctx s)
  /\ (is_none distnr || is_none distpsnr || is_none sgscore
      || is_none magpsf || is_none magnr = true ->
      nuclear_transient s = (Ok tt, s)).
Proof.
  intros H1 H2 H3 H4 H5.
  unfold nuclear_transient, bind, lift, ret, get_properties, send_to_stream.
  change (dict_update (m_fields (ld_alert (ctx s))) (ld_new_properties (ctx s)))
    with (props_of s).
  unfold dict_getitem. rewrite H1, H2, H3, H4, H5.
  unfold none_in, nuclear_transient_cond. cbn [existsb]. rewrite !py_eq_none.
  destruct (is_none distnr), (is_none distpsnr), (is_none sgscore),
    (is_none magpsf), (is_none magnr); simpl;
    try (split; [ reflexivity | intros _; reflexivity ]).
  split; [ | discriminate ].
  unfold lt_holds.
  destruct (py_lt distnr (PFloat 0.6)) as [[ | ] | ]; simpl; try reflexivity.
  destruct (py_lt distpsnr (PFloat 1.0)) as [[ | ] | ]; simpl; try reflexivity.
  destruct (py_lt sgscore (PFloat 0.3)) as [[ | ] | ]; simpl; try reflexivity.
  destruct (py_sub magpsf magnr) as [d | ]; simpl; try reflexivity.
  destruct (py_lt d (PFloat 1.5)) as [[ | ] | ]; reflexivity.
Qed.

(** No bound of the [in_m31] box lies strictly below itself. *)
Lemma lt_holds_ra_min : lt_holds (PFloat 9.934793) (PFloat 9.934793) = false.
Proof. vm_compute. reflexivity. Qed.

Lemma lt_holds_ra_max : lt_holds (PFloat 11.434793) (PFloat 11.434793) = false.
Proof. vm_compute. reflexivity. Qed.

Lemma lt_holds_dec_min : lt_holds (PFloat 40.269065) (PFloat 40.269065) = false.
Proof. vm_compute. reflexivity. Qed.

Lemma lt_holds_dec_max : lt_holds (PFloat 42.269065) (PFloat 42.269065) = false.
Proof. vm_compute. reflexivity. Qed.

(** C10: for every properties mapping holding [ra] and [dec], [in_m31]
    requests the stream 'in_m31' exactly when [9.934793 < ra < 11.434793] and
    [40.269065 < dec < 42.269065], all four bounds strict; a point on the
    boundary of the box is not sent to the stream. *)
Theorem in_m31_requests_stream (s : fstate) (ra dec : pyval) :
  dict_get "ra" (props_of s) = Some ra ->
  dict_get "dec" (props_of s) = Some dec ->
  ctx (snd (in_m31 s)) =
    (if in_m31_cond ra dec then add_stream "in_m31" (ctx s) else ctx s)
  /\ (ra = PFloat 9.934793 \/ ra = PFloat 11.434793
      \/ dec = PFloat 40.269065 \/ dec = PFloat 42.269065 ->
      ctx (snd (in_m31 s)) = ctx s).
Proof.
  intros H1 H2.
  assert (Hrun : ctx (snd (in_m31 s)) =
    (if in_m31_cond ra dec then add_stream "in_m31" (ctx s) else ctx s)).
  { unfold in_m31, bind, lift, ret, get_properties, send_to_stream.
    change (dict_update (m_fields (ld_alert (ctx s))) (ld_new_properties (ctx s)))
      with (props_of s).
    unfold dict_getitem. rewrite H1, H2.
    unfold in_m31_cond, py_gt, lt_holds, ra_max, ra_min, dec_max, dec_min.
    destruct (py_lt ra (PFloat 11.434793)) as [[ | ] | ]; cbn [negb andb];
      [ | rewrite andb_false_r; reflexivity | rewrite andb_false_r; reflexivity ].
    destruct (py_lt (PFloat 9.934793) ra) as [[ | ] | ]; cbn [negb andb]; try reflexivity.
    destruct (py_lt dec (PFloat 42.269065)) as [[ | ] | ]; cbn [negb andb];
      [ | rewrite andb_false_r; reflexivity | rewrite andb_false_r; reflexivity ].
    destruct (py_lt (PFloat 40.269065) dec) as [[ | ] | ]; reflexivity. }
  split; [ exact Hrun | ].
  intros Hb. rewrite Hrun.
  assert (Hc : in_m31_cond ra dec = false).
  { unfold in_m31_cond.
    destruct Hb as [-> | [-> | [-> | ->]]].
    - rewrite lt_holds_ra_min. reflexivity.
    - rewrite lt_holds_ra_max, andb_false_r. reflexivity.
    - rewrite lt_holds_dec_min, andb_false_r. reflexivity.
    - rewrite lt_holds_dec_max, andb_false_r. reflexivity. }
  rewrite Hc. reflexivity.
Qed.

(** ** Dict lemmas *)

Lemma dict_set_keys (k : string) (v : pyval) (d : pydict) :
  map fst (dict_set k v d) =
  if existsb (String.eqb k) (map fst d) then map fst d else map fst d ++ [k].
Proof.
  induction d as [ | [k' v'] d IH ]; simpl; [ reflexivity | ].
  destruct (String.eqb k k') eqn:E; simpl; [ reflexivity | ].
  rewrite IH. destruct (existsb (String.eqb k) (map fst d)); reflexivity.
Qed.

Lemma existsb_eqb_In (k : string) (l : list string) :
  existsb (String.eqb k) l = true <-> In k l.
Proof.
  rewrite existsb_exists. split.
  - intros [x [Hx E]]. apply String.eqb_eq in E. subst. exact Hx.
  - intros H. exists k. split; [ exact H | apply String.eqb_refl ].
Qed.

Lemma dict_set_nodup (k : string) (v : pyval) (d : pydict) :
  NoDup (map fst d) -> NoDup (map fst (dict_set k v d)).
Proof.
  intros Hd. rewrite dict_set_keys.
  destruct (existsb (String.eqb k) (map fst d)) eqn:E; [ exact Hd | ].
  apply NoDup_app; [ exact Hd | constructor; [ intros [] | constructor ] | ].
  intros x Hx [Hk | []]. subst x. apply existsb_eqb_In in Hx. congruence.
Qed.

Lemma dict_entries_absent (k : string) (d : pydict) :
  ~ In k (map fst d) -> filter (fun kv => String.eqb (fst kv) k) d = [].
Proof.
  induction d as [ | [k' v'] d IH ]; intros Hnot; simpl; [ reflexivity | ].
  destruct (String.eqb k' k) eqn:E.
  - apply String.eqb_eq in E. subst. exfalso. apply Hnot. left. reflexivity.
  - apply IH. intros H. apply Hnot. right. exact H.
Qed.

(** In a dict with distinct keys, after [d[k] = v] the entries for [k] are
    exactly [(k, v)]. *)
Lemma dict_set_entries (k : string) (v : pyval) (d : pydict) :
  NoDup (map fst d) ->
  filter (fun kv => String.eqb (fst kv) k) (dict_set k v d) = [(k, v)].
Proof.
  induction d as [ | [k' v'] d IH ]; intros Hd; simpl.
  - rewrite String.eqb_refl. reflexivity.
  - simpl in Hd. inversion Hd as [ | ? ? Hnot Hd' ]; subst.
    destruct (String.eqb k k') eqn:E.
    + apply String.eqb_eq in E. subst k'. simpl. rewrite String.eqb_refl.
      f_equal. apply dict_entries_absent. exact Hnot.
    + simpl. rewrite String.eqb_sym, E. apply IH. exact Hd'.
Qed.

(** ** The per-invocation outputs *)

(** C5: [set_property(name, value)] succeeds for an int, a float or a string;
    for a value of any other kind ([None], a list) it raises
    [InvalidPropertyTypeError] and leaves the whole state, in particular the
    new properties, unchanged. *)
Theorem set_property_kinds (s : fstate) (name : string) (value : pyval) :
  match value with
  | PInt _ | PFloat _ | PStr _ =>
      fst (set_property name value s) = Ok tt
      /\ ld_new_properties (ctx (snd (set_property name value s)))
         = dict_set name value (ld_new_properties (ctx s))
  | PNone | PList _ =>
      set_property name value s = (Raise InvalidPropertyTypeError, s)
  end.
Proof. destruct value; split || reflexivity; reflexivity. Qed.

(** The new properties of a fresh context have distinct keys, and
    [set_property] keeps them distinct. *)
Lemma set_property_nodup (s : fstate) (name : string) (value : pyval) :
  NoDup (map fst (ld_new_properties (ctx s))) ->
  NoDup (map fst (ld_new_properties (ctx (snd (set_property name value s))))).
Proof.
  unfold set_property. destruct (is_scalar value); simpl; [ | exact (fun H => H) ].
  apply dict_set_nodup.
Qed.

(** C7: within one invocation, [set_property(name, v1)] followed by
    [set_property(name, v2)] leaves exactly one entry for [name] in the new
    properties, holding [v2]: the last write wins. *)
Theorem set_property_last_write_wins (s : fstate) (name : string) (v1 v2 : pyval) :
  NoDup (map fst (ld_new_properties (ctx s))) ->
  is_scalar v1 = true -> is_scalar v2 = true ->
  let s2 := snd ((set_property name v1 ;; set_property name v2) s) in
  filter (fun kv => String.eqb (fst kv) name) (ld_new_properties (ctx s2))
  = [(name, v2)].
Proof.
  intros Hd H1 H2. cbv [bind set_property]. rewrite H1. cbn [ctx]. rewrite H2.
  cbn [snd ctx with_ctx set_new_properties ld_new_properties].
  apply dict_set_entries, dict_set_nodup, Hd.
Qed.

(** ** The catalog match set *)

Lemma add_match_keys (acc : list (string * list match_record)) (c : string)
    (r : match_record) :
  map fst (add_match acc (c, r)) =
  if existsb (String.eqb c) (map fst acc) then map fst acc else map fst acc ++ [c].
Proof.
  unfold add_match.
  replace (existsb (fun e => String.eqb (fst e) c) acc)
    with (existsb (String.eqb c) (map fst acc)).
  - destruct (existsb (String.eqb c) (map fst acc)).
    + rewrite map_map. apply map_ext. intros [c' rs]. simpl.
      destruct (String.eqb c' c); reflexivity.
    + rewrite map_app. reflexivity.
  - induction acc as [ | [c' rs] acc IH ]; simpl; [ reflexivity | ].
    rewrite String.eqb_sym, IH. reflexivity.
Qed.

Lemma add_match_nonempty (acc : list (string * list match_record)) (c : string)
    (r : match_record) :
  (forall c' rs, In (c', rs) acc -> rs <> []) ->
  forall c' rs, In (c', rs) (add_match acc (c, r)) -> rs <> [].
Proof.
  intros Hacc c' rs. unfold add_match.
  destruct (existsb (fun e => String.eqb (fst e) c) acc).
  - rewrite in_map_iff. intros [[c0 rs0] [E Hin]]. simpl in E.
    destruct (String.eqb c0 c); injection E as <- <-.
    + destruct rs0; discriminate.
    + exact (Hacc _ _ Hin).
  - rewrite in_app_iff. intros [Hin | [E | []]].
    + exact (Hacc _ _ Hin).
    + injection E as <- <-. discriminate.
Qed.

Lemma catalog_match_set_fold (ms : list (string * match_record))
    (acc : list (string * list match_record)) :
  NoDup (map fst acc) ->
  (forall c rs, In (c, rs) acc -> rs <> []) ->
  let res := fold_left add_match ms acc in
  NoDup (map fst res)
  /\ (forall c rs, In (c, rs) res -> rs <> [])
  /\ (forall c, In c (map fst res) <-> In c (map fst acc) \/ exists r, In (c, r) ms).
Proof.
  revert acc. induction ms as [ | [c r] ms IH ]; intros acc Hnd Hne; simpl.
  - split; [ exact Hnd | split; [ exact Hne | ] ].
    intros c. split; [ left; exact H | intros [H | [r []]]; exact H ].
  - assert (Hnd' : NoDup (map fst (add_match acc (c, r)))).
    { rewrite add_match_keys.
      destruct (existsb (String.eqb c) (map fst acc)) eqn:E; [ exact Hnd | ].
      apply NoDup_app; [ exact Hnd | constructor; [ intros [] | constructor ] | ].
      intros x Hx [Hk | []]. subst x. apply existsb_eqb_In in Hx. congruence. }
    destruct (IH _ Hnd' (add_match_nonempty acc c r Hne)) as [H1 [H2 H3]].
    split; [ exact H1 | split; [ exact H2 | ] ].
    intros c'. rewrite H3, add_match_keys.
    destruct (existsb (String.eqb c) (map fst acc)) eqn:E.
    + apply existsb_eqb_In in E. split.
      * intros [H | [r' Hr']]; [ left; exact H | right; exists r'; right; exact Hr' ].
      * intros [H | [r' [Hr' | Hr']]]; [ left; exact H | | right; exists r'; exact Hr' ].
        injection Hr' as <- <-. left. exact E.
    + rewrite in_app_iff. simpl. split.
      * intros [[H | [<- | []]] | [r' Hr']];
          [ left; exact H | right; exists r; left; reflexivity
          | right; exists r'; right; exact Hr' ].
      * intros [H | [r' [Hr' | Hr']]];
          [ left; left; exact H | | right; exists r'; exact Hr' ].
        injection Hr' as <- <-. left. right. left. reflexivity.
Qed.

(** C6: in every context whose match set is the one computed upstream,
    [get_astro_object_matches()] returns a mapping (distinct catalog names)
    that never maps a catalog to an empty sequence, and a catalog name is a key
    exactly when the catalog has at least one match. *)
Theorem get_astro_object_matches_no_empty (s : fstate)
    (matches : list (string * match_record)) :
  ld_matches (ctx s) = catalog_match_set matches ->
  exists ms, get_astro_object_matches s = (Ok ms, s)
    /\ NoDup (map fst ms)
    /\ (forall c rs, In (c, rs) ms -> rs <> [])
    /\ (forall c, In c (map fst ms) <-> exists r, In (c, r) matches).
Proof.
  intros Hm. exists (ld_matches (ctx s)). split; [ reflexivity | ].
  rewrite Hm. unfold catalog_match_set.
  destruct (catalog_match_set_fold matches [] (NoDup_nil _)
              (fun c rs H => match H with end)) as [H1 [H2 H3]].
  split; [ exact H1 | split; [ exact H2 | ] ].
  intros c. rewrite H3. simpl. split; [ intros [[] | H]; exact H | intros H; right; exact H ].
Qed.

(** The operations a filter can call leave the match set as it was. *)
Lemma set_property_matches (s : fstate) (name : string) (value : pyval) :
  ld_matches (ctx (snd (set_property name value s))) = ld_matches (ctx s).
Proof. unfold set_property. destruct (is_scalar value); reflexivity. Qed.

Lemma send_to_stream_matches (s : fstate) (name : string) :
  ld_matches (ctx (snd (send_to_stream name s))) = ld_matches (ctx s).
Proof. reflexivity. Qed.

(** ** Time series *)

Lemma find_none_forallb (p : string -> bool) (l : list string) :
  find (fun f => negb (p f)) l = None <-> forallb p l = true.
Proof.
  induction l as [ | x l IH ]; simpl; [ split; reflexivity | ].
  destruct (p x); simpl; [ exact IH | split; discriminate ].
Qed.

Lemma find_some_unknown (p : string -> bool) (l : list string) (g : string) :
  find (fun f => negb (p f)) l = Some g -> In g l /\ p g = false.
Proof.
  intros H. apply find_some in H as [Hin Hg]. split; [ exact Hin | ].
  destruct (p g); [ discriminate | reflexivity ].
Qed.

(** C3 (amended): for every context whose history has at least two
    measurements, [get_time_series] without filters on requested fields that
    are all known returns, leaving the context as it was, one row per field:
    the reserved [alert_id] and [mjd] rows first, then the requested fields in
    order, each row with one entry per measurement of the history; a request
    naming an unknown field raises [UnknownFieldError] for such a field. *)
Theorem get_time_series_shape (s : fstate) (fields : list string) :
  (2 <= List.length (ld_time_series (ctx s)))%nat ->
  let history := ld_time_series (ctx s) in
  (forallb (field_known history) fields = true ->
   exists t rest,
     get_time_series fields None s = (Ok t, s)
     /\ map fst t = "alert_id" :: "mjd" :: fields
     /\ Forall (fun row => List.length (snd row) = List.length history) t
     /\ t = ("alert_id", map (fun m => Present (PInt (m_alert_id m))) history)
            :: ("mjd", map (fun m => Present (PFloat (m_mjd m))) history) :: rest)
  /\ (forallb (field_known history) fields = false ->
      exists g, In g fields /\ field_known history g = false
      /\ get_time_series fields None s = (Raise (UnknownFieldError g), s)).
Proof.
  intros _ history. split.
  - intros Hk. apply find_none_forallb in Hk.
    exists (time_series_table fields history),
      (map (fun f => (f, map (fun m => cell_of m f) history)) fields).
    unfold get_time_series. fold history. rewrite Hk.
    split; [ reflexivity | ].
    split; [ unfold time_series_table; rewrite map_map; cbn [fst]; rewrite map_id; reflexivity | ].
    split.
    + unfold time_series_table. apply Forall_map, Forall_forall.
      intros f _. simpl. apply length_map.
    + reflexivity.
  - intros Hk. unfold get_time_series. fold history.
    destruct (find (fun f => negb (field_known history f)) fields) as [g | ] eqn:Hf.
    + apply find_some_unknown in Hf as [Hin Hg]. exists g. auto.
    + apply find_none_forallb in Hf. congruence.
Qed.

(** C4: for every [filters] mapping, [get_time_series] raises exactly when it
    raises without the filters (an unknown requested field: comparing values
    never raises), and otherwise returns the table of exactly the
    measurements of the history, in order, in which every listed field is
    present and equal to the given value without coercion. *)
Theorem get_time_series_filters_exact (s : fstate) (fields : list string)
    (filters : pydict) :
  (forall e, fst (get_time_series fields (Some filters) s) = Raise e
             <-> fst (get_time_series fields None s) = Raise e)
  /\ (forall t, fst (get_time_series fields (Some filters) s) = Ok t ->
      exists sel,
        t = time_series_table fields sel
        /\ sel = filter (satisfies filters) (ld_time_series (ctx s))
        /\ (forall m, In m sel <->
              In m (ld_time_series (ctx s))
              /\ (forall f v, In (f, v) filters ->
                    exists w, measurement_field m f = Some w
                              /\ val_exact_eqb w v = true))).
Proof.
  unfold get_time_series.
  destruct (find _ fields) as [g | ]; simpl.
  - split; [ intros e; reflexivity | intros t H; discriminate ].
  - split; [ intros e; split; discriminate | ].
    intros t Ht. injection Ht as <-.
    exists (filter (satisfies filters) (ld_time_series (ctx s))).
    split; [ reflexivity | split; [ reflexivity | ] ].
    intros m. rewrite filter_In. unfold satisfies. rewrite forallb_forall.
    split; intros [Hin Hall]; split; try exact Hin.
    + intros f v Hfv. specialize (Hall (f, v) Hfv). simpl in Hall.
      destruct (measurement_field m f) as [w | ]; [ | discriminate ].
      exists w. split; [ reflexivity | exact Hall ].
    + intros [f v] Hfv. destruct (Hall f v Hfv) as [w [Hw Hv]]. simpl.
      rewrite Hw. exact Hv.
Qed.

(** ** The driver *)

(** C1 (amended): [run_stage] runs the filter once, on a fresh context built
    from the alert's upstream data: what it printed is appended once to the
    output; when the filter returns, the result is the report with exactly
    the keys [new_properties], [new_streams] and [locus_data], holding the
    new properties, the requested streams and the context after the run;
    when it raises, the result is a [FilterExecutionError] wrapping the
    exception. *)
Theorem run_stage_runs_filter_once (get_locus_input : Z -> locus_input)
    (alert_id : Z) (f : filter_fn) (out : list string) :
  exists r s,
    f (fresh_state get_locus_input alert_id) = (r, s)
    /\ snd (run_stage get_locus_input alert_id f out) = out ++ stdout s
    /\ (r = Ok tt ->
        fst (run_stage get_locus_input alert_id f out)
        = Ok (Report [("new_properties", RNewProperties (ld_new_properties (ctx s)));
                      ("new_streams", RNewStreams (ld_new_streams (ctx s)));
                      ("locus_data", RLocusData (ctx s))]))
    /\ (forall e, r = Raise e ->
        fst (run_stage get_locus_input alert_id f out) = Ok (FilterExecutionError e)).
Proof.
  unfold run_stage.
  destruct (f (fresh_state get_locus_input alert_id)) as [r s] eqn:Hf.
  exists r, s. split; [ reflexivity | split; [ reflexivity | ] ].
  split; [ intros ->; reflexivity | intros e ->; reflexivity ].
Qed.

Lemma run_stage_outcome (get_locus_input : Z -> locus_input) (f : filter_fn)
    (alert_id : Z) (out : list string) :
  fst (run_stage get_locus_input alert_id f out)
  = Ok (stage_outcome get_locus_input f alert_id).
Proof.
  unfold run_stage, stage_outcome.
  destruct (f (fresh_state get_locus_input alert_id)) as [[ | ] s]; reflexivity.
Qed.

(** The comprehension of [run_many] never stops early: [run_stage] does not
    raise. *)
Lemma mapM_run_stage (get_locus_input : Z -> locus_input) (f : filter_fn)
    (ids : list Z) (out : list string) :
  exists out',
    mapM (fun alert_id => run_stage get_locus_input alert_id f) ids out
    = (Ok (map (stage_outcome get_locus_input f) ids), out').
Proof.
  revert out. induction ids as [ | a ids IH ]; intros out; simpl.
  - exists out. reflexivity.
  - unfold bind at 1.
    pose proof (run_stage_outcome get_locus_input f a out) as Ha.
    destruct (run_stage get_locus_input a f out) as [ra out1]. simpl in Ha. subst ra.
    unfold bind. destruct (IH out1) as [out2 Hrest]. rewrite Hrest.
    exists out2. reflexivity.
Qed.

(** C2: for every list of alert ids, [run_many] returns a list of the same
    length whose [i]-th entry is the result for the [i]-th id: a
    [FilterExecutionError] when the filter raises on that id, the normal
    report otherwise, each computed from that id alone on its own fresh
    context. *)
Theorem run_many_index_aligned (get_locus_input : Z -> locus_input)
    (get_alert_ids : Z -> list Z) (f : filter_fn) (n : Z) (out : list string) :
  exists rs out',
    run_many get_locus_input get_alert_ids f n out = (Ok rs, out')
    /\ List.length rs = List.length (get_alert_ids n)
    /\ forall i alert_id, nth_error (get_alert_ids n) i = Some alert_id ->
       (forall e, fst (f (fresh_state get_locus_input alert_id)) = Raise e ->
                  nth_error rs i = Some (FilterExecutionError e))
       /\ (fst (f (fresh_state get_locus_input alert_id)) = Ok tt ->
           nth_error rs i
           = Some (Report (stage_report (ctx (snd (f (fresh_state get_locus_input alert_id))))))).
Proof.
  destruct (mapM_run_stage get_locus_input f (get_alert_ids n) out) as [out' H].
  exists (map (stage_outcome get_locus_input f) (get_alert_ids n)), out'.
  split; [ exact H | split; [ apply length_map | ] ].
  intros i alert_id Hi. rewrite nth_error_map, Hi. simpl. unfold stage_outcome.
  destruct (f (fresh_state get_locus_input alert_id)) as [[ [] | e' ] s]; simpl;
    split; intros; congruence.
Qed.

(** ** Witnesses and counterexamples *)

Lemma run_stage_raising_filter_counterexample :
  ~ (forall alert_id f, exists r,
       fst (run_stage scenario_input alert_id f []) = Ok (Report r)
       /\ map fst r = ["new_properties"; "new_streams"; "locus_data"]).
Proof.
  intros H. destruct (H 2 raising_filter) as [r [Hr _]]. vm_compute in Hr. discriminate.
Qed.

Lemma get_time_series_unknown_field_counterexample :
  (2 <= List.length (ld_time_series (ctx scenario_state)))%nat
  /\ ~ (exists t, fst (get_time_series ["bogus"] None scenario_state) = Ok t).
Proof.
  split; [ vm_compute; repeat constructor | ].
  intros [t Ht]. vm_compute in Ht. discriminate.
Qed.

Lemma get_time_series_shape_witness :
  (2 <= List.length (ld_time_series (ctx scenario_state)))%nat
  /\ exists t rest,
       get_time_series ["fid"; "mag"] None scenario_state = (Ok t, scenario_state)
       /\ t = ("alert_id", [Present (PInt 1); Present (PInt 2)])
              :: ("mjd", [Present (PFloat 100.0); Present (PFloat 101.0)]) :: rest.
Proof.
  assert (H2 : (2 <= List.length (ld_time_series (ctx scenario_state)))%nat)
    by (vm_compute; repeat constructor).
  split; [ exact H2 | ].
  destruct (get_time_series_shape scenario_state ["fid"; "mag"] H2) as [Hk _].
  destruct (Hk eq_refl) as [t [rest [Hrun [_ [_ Ht]]]]].
  exists t, rest. split; [ exact Hrun | exact Ht ].
Defined.

Lemma get_astro_object_matches_no_empty_witness :
  ld_matches (ctx scenario_state) = catalog_match_set (li_matches (scenario_input 2))
  /\ exists ms, get_astro_object_matches scenario_state = (Ok ms, scenario_state)
       /\ (forall c rs, In (c, rs) ms -> rs <> []).
Proof.
  split; [ reflexivity | ].
  destruct (get_astro_object_matches_no_empty scenario_state
              (li_matches (scenario_input 2)) eq_refl) as [ms [H1 [_ [H3 _]]]].
  exists ms. split; [ exact H1 | exact H3 ].
Defined.

Lemma set_property_last_write_wins_witness :
  NoDup (map fst (ld_new_properties (ctx scenario_state)))
  /\ filter (fun kv => String.eqb (fst kv) "x")
       (ld_new_properties (ctx (snd ((set_property "x" (PInt 500) ;;
                                      set_property "x" (PStr "hello")) scenario_state))))
     = [("x", PStr "hello")].
Proof.
  assert (Hd : NoDup (map fst (ld_new_properties (ctx scenario_state)))) by constructor.
  split; [ exact Hd | ].
  exact (set_property_last_write_wins scenario_state "x" (PInt 500) (PStr "hello")
           Hd eq_refl eq_refl).
Defined.

Lemma high_snr_requests_stream_witness :
  dict_get "ztf_fid" (props_of snr_sample) = Some (PInt 1)
  /\ dict_get "ztf_sigmapsf" (props_of snr_sample) = Some (PFloat 0.01)
  /\ ld_new_streams (ctx (snd (high_snr snr_sample))) = ["high_snr"].
Proof.
  split; [ reflexivity | split; [ reflexivity | ] ].
  destruct (high_snr_requests_stream snr_sample (PInt 1) (PFloat 0.01) eq_refl eq_refl)
    as [H _].
  rewrite H. vm_compute. reflexivity.
Defined.

Lemma nuclear_transient_requests_stream_witness :
  dict_get "ztf_distnr" (props_of nuclear_sample) = Some (PFloat 0.2)
  /\ ld_new_streams (ctx (snd (nuclear_transient nuclear_sample)))
     = ["nuclear_transient"].
Proof.
  split; [ reflexivity | ].
  destruct (nuclear_transient_requests_stream nuclear_sample
              (PFloat 0.1) (PFloat 0.5) (PFloat 18.0) (PInt 17) (PFloat 0.2)
              eq_refl eq_refl eq_refl eq_refl eq_refl) as [H _].
  rewrite H. vm_compute. reflexivity.
Defined.

Lemma in_m31_requests_stream_witness :
  dict_get "ra" (props_of m31_sample) = Some (PFloat 10.5)
  /\ dict_get "dec" (props_of m31_sample) = Some (PInt 41)
  /\ ld_new_streams (ctx (snd (in_m31 m31_sample))) = ["in_m31"].
Proof.
  split; [ reflexivity | split; [ reflexivity | ] ].
  destruct (in_m31_requests_stream m31_sample (PFloat 10.5) (PInt 41) eq_refl eq_refl)
    as [H _].
  rewrite H. vm_compute. reflexivity.
Defined.

(** * Further properties of the notebook's code *)

(** Case analysis over every [match] a filter run still has to decide. *)
Ltac split_filter_run :=
  repeat match goal with
         | |- context [match ?x with _ => _ end] =>
             lazymatch x with
             | (_, _) => fail
             | _ => destruct x
             end
         end.

(** The science filters never set a property and never print: a run leaves
    the context as it was or only adds the filter's own stream. *)
Theorem science_filters_only_add_their_stream (s : fstate) :
  (snd (high_snr s) = s \/ snd (high_snr s) = with_ctx s (add_stream "high_snr" (ctx s)))
  /\ (snd (extragalactic s) = s
      \/ snd (extragalactic s) = with_ctx s (add_stream "extragalactic" (ctx s)))
  /\ (snd (nuclear_transient s) = s
      \/ snd (nuclear_transient s) = with_ctx s (add_stream "nuclear_transient" (ctx s)))
  /\ (snd (in_m31 s) = s \/ snd (in_m31 s) = with_ctx s (add_stream "in_m31" (ctx s))).
Proof.
  unfold high_snr, extragalactic, nuclear_transient, in_m31, bind, lift, ret,
    get_properties, get_astro_object_matches, send_to_stream.
  repeat split; split_filter_run; cbn [snd]; auto.
Qed.

(** Rewrites the lookups a filter run depends on with their known results. *)
Ltac rewrite_lookups :=
  repeat match goal with
         | E : dict_get _ _ = _ |- _ => rewrite E; clear E
         end.

(** A key that is read and known to be present gets its value named. *)
Ltac name_present_keys :=
  repeat match goal with
         | H : Forall _ (_ :: _) |- _ => inversion_clear H
         | H : dict_get ?k ?d <> None |- _ =>
             let v := fresh "v" in
             let E := fresh "E" in
             destruct (dict_get k d) as [v | ] eqn:E; [ clear H | congruence ]
         end.

(** A science filter reads its properties with [props[key]] in the order of
    its source: the first key of that order missing from the properties
    raises [KeyError] for that key, before any stream is requested. *)
Theorem science_filters_first_missing_key (s : fstate) (f : filter_fn)
    (keys pre post : list string) (k : string) :
  In (f, keys) [(high_snr, ["ztf_fid"; "ztf_sigmapsf"]);
                (nuclear_transient, ["ztf_sgscore1"; "ztf_distpsnr1"; "ztf_magpsf";
                                     "ztf_magnr"; "ztf_distnr"]);
                (in_m31, ["ra"; "dec"])] ->
  keys = pre ++ k :: post ->
  Forall (fun k' => dict_get k' (props_of s) <> None) pre ->
  dict_get k (props_of s) = None ->
  f s = (Raise (KeyError k), s).
Proof.
  intros Hin Hk Hpre Hnone.
  destruct Hin as [Hf | [Hf | [Hf | []]]]; injection Hf as <- <-;
    destruct pre as [ | a [ | b [ | c [ | d [ | e pre ] ] ] ] ];
    simpl in Hk; inversion Hk; subst; try (destruct pre; discriminate);
    name_present_keys;
    unfold high_snr, nuclear_transient, in_m31, bind, lift, get_properties, dict_getitem;
    unfold props_of in *; rewrite_lookups; reflexivity.
Qed.

(** [high_snr]: a zero [ztf_sigmapsf] (the int [0], or a float equal to zero,
    [-0.0] included) makes [1.0 / sigmapsf] raise [ZeroDivisionError],
    whatever the band, and nothing is requested. *)
Theorem high_snr_zero_sigmapsf (s : fstate) (fid sigmapsf : pyval) :
  dict_get "ztf_fid" (props_of s) = Some fid ->
  dict_get "ztf_sigmapsf" (props_of s) = Some sigmapsf ->
  (sigmapsf = PInt 0 \/ exists z, sigmapsf = PFloat z /\ PrimFloat.eqb z 0%float = true) ->
  high_snr s = (Raise ZeroDivisionError, s).
Proof.
  intros Hfid Hsig Hzero.
  unfold high_snr, bind, lift, get_properties, dict_getitem.
  unfold props_of in *. rewrite Hfid, Hsig.
  destruct Hzero as [-> | [z [-> Hz]]].
  - reflexivity.
  - unfold float_truediv. rewrite Hz. reflexivity.
Qed.

(** [high_snr]: an alert whose band is neither [1] nor [2] (another int, a
    string or [None]) has no threshold: with a usable [ztf_sigmapsf] (a
    non-zero float) the filter returns without requesting a stream. *)
Theorem high_snr_other_band (s : fstate) (fid : pyval) (sigma : float) :
  dict_get "ztf_fid" (props_of s) = Some fid ->
  dict_get "ztf_sigmapsf" (props_of s) = Some (PFloat sigma) ->
  PrimFloat.eqb sigma 0%float = false ->
  match fid with
  | PInt z => z <> 1 /\ z <> 2
  | PStr _ | PNone => True
  | _ => False
  end ->
  high_snr s = (Ok tt, s).
Proof.
  intros Hfid Hsig Hnz Hband.
  unfold high_snr, bind, lift, ret, get_properties, dict_getitem.
  unfold props_of in *. rewrite Hfid, Hsig.
  unfold float_truediv. rewrite Hnz.
  assert (Hnone : int_dict_get snr_thresholds fid = Ok PNone).
  { destruct fid as [z | | | | ]; try contradiction; try reflexivity.
    destruct Hband as [H1 H2]. unfold int_dict_get, snr_thresholds. cbn [find fst py_eq].
    assert (E1 : (1 =? z) = false) by (apply Z.eqb_neq; congruence).
    assert (E2 : (2 =? z) = false) by (apply Z.eqb_neq; congruence).
    rewrite E1, E2. reflexivity. }
  rewrite Hnone. reflexivity.
Qed.

(** [nuclear_transient]: once the five values are read, the filter returns
    without requesting a stream and without raising when one of them is
    [None], or when [distnr < 0.6] is false: the [and] chain stops there,
    whatever the remaining values are. *)
Theorem nuclear_transient_short_circuit (s : fstate)
    (sgscore distpsnr magpsf magnr distnr : pyval) :
  dict_get "ztf_sgscore1" (props_of s) = Some sgscore ->
  dict_get "ztf_distpsnr1" (props_of s) = Some distpsnr ->
  dict_get "ztf_magpsf" (props_of s) = Some magpsf ->
  dict_get "ztf_magnr" (props_of s) = Some magnr ->
  dict_get "ztf_distnr" (props_of s) = Some distnr ->
  none_in [distnr; distpsnr; sgscore; magpsf; magnr] = true
  \/ py_lt distnr (PFloat 0.6) = Ok false ->
  nuclear_transient s = (Ok tt, s).
Proof.
  intros H1 H2 H3 H4 H5 Hstop.
  unfold nuclear_transient, bind, lift, ret, get_properties, dict_getitem.
  unfold props_of in *. rewrite H1, H2, H3, H4, H5.
  destruct Hstop as [Hn | Hlt].
  - rewrite Hn. reflexivity.
  - destruct (none_in [distnr; distpsnr; sgscore; magpsf; magnr]); [ reflexivity | ].
    rewrite Hlt. reflexivity.
Qed.

(** [nuclear_transient]: a [distnr] that is neither a number nor [None] (a
    string or a list) cannot be compared with [0.6]: the filter raises
    [TypeError] and requests nothing. *)
Theorem nuclear_transient_distnr_type_error (s : fstate)
    (sgscore distpsnr magpsf magnr distnr : pyval) :
  dict_get "ztf_sgscore1" (props_of s) = Some sgscore ->
  dict_get "ztf_distpsnr1" (props_of s) = Some distpsnr ->
  dict_get "ztf_magpsf" (props_of s) = Some magpsf ->
  dict_get "ztf_magnr" (props_of s) = Some magnr ->
  dict_get "ztf_distnr" (props_of s) = Some distnr ->
  none_in [distpsnr; sgscore; magpsf; magnr] = false ->
  match distnr with PStr _ | PList _ => True | _ => False end ->
  nuclear_transient s = (Raise TypeError, s).
Proof.
  intros H1 H2 H3 H4 H5 Hn Hd.
  unfold nuclear_transient, bind, lift, ret, get_properties, dict_getitem.
  unfold props_of in *. rewrite H1, H2, H3, H4, H5.
  assert (Hall : none_in [distnr; distpsnr; sgscore; magpsf; magnr] = false)
    by (destruct distnr; try contradiction; exact Hn).
  rewrite Hall. destruct distnr; try contradiction; reflexivity.
Qed.

(** [in_m31]: [ra_max > ra > ra_min and ...] stops at its first false
    comparison: when [ra_max > ra] is false the filter returns without
    requesting a stream, whatever [dec] is; an [ra] that is not a number
    ([None], a string or a list) makes the first comparison raise
    [TypeError]. *)
Theorem in_m31_ra_first (s : fstate) (ra dec : pyval) :
  dict_get "ra" (props_of s) = Some ra ->
  dict_get "dec" (props_of s) = Some dec ->
  (py_gt (PFloat ra_max) ra = Ok false -> in_m31 s = (Ok tt, s))
  /\ (match ra with PNone | PStr _ | PList _ => True | _ => False end ->
      in_m31 s = (Raise TypeError, s)).
Proof.
  intros Hra Hdec.
  unfold in_m31, bind, lift, ret, get_properties, dict_getitem.
  unfold props_of in *. rewrite Hra, Hdec. split.
  - intros Hgt. rewrite Hgt. reflexivity.
  - intros Hty. destruct ra; try contradiction; reflexivity.
Qed.

(** The catalog names of a match set computed upstream are the names of the
    matched entries. *)
Lemma catalog_match_set_names (ms : list (string * match_record)) (c : string) :
  In c (map fst (catalog_match_set ms)) <-> exists r, In (c, r) ms.
Proof.
  unfold catalog_match_set.
  destruct (catalog_match_set_fold ms [] (NoDup_nil _)
              (fun c rs H => match H with end)) as [_ [_ H3]].
  rewrite H3. simpl. split; [ intros [[] | H]; exact H | intros H; right; exact H ].
Qed.

Lemma existsb_xsc_cats (names : list string) :
  existsb (fun c => existsb (String.eqb c) xsc_cats) names = true
  <-> exists c, In c names /\ In c xsc_cats.
Proof.
  rewrite existsb_exists. split; intros [c [H1 H2]]; exists c; split; try exact H1.
  - apply existsb_eqb_In. exact H2.
  - apply existsb_eqb_In. exact H2.
Qed.

(** [extragalactic] run by the driver on the fresh context of an alert: it
    never raises, prints nothing, sets no property, and requests exactly the
    stream ['extragalactic'] when one of the alert's matched catalog entries
    comes from an extended-source catalog of [xsc_cats], and no stream
    otherwise. *)
Theorem extragalactic_on_fresh_context (get_locus_input : Z -> locus_input)
    (alert_id : Z) :
  let s' := snd (extragalactic (fresh_state get_locus_input alert_id)) in
  fst (extragalactic (fresh_state get_locus_input alert_id)) = Ok tt
  /\ stdout s' = []
  /\ ld_new_properties (ctx s') = []
  /\ (ld_new_streams (ctx s') = [] \/ ld_new_streams (ctx s') = ["extragalactic"])
  /\ (ld_new_streams (ctx s') = ["extragalactic"]
      <-> exists c r, In (c, r) (li_matches (get_locus_input alert_id)) /\ In c xsc_cats).
Proof.
  cbv zeta.
  unfold extragalactic, bind, get_astro_object_matches, send_to_stream, ret.
  cbn [ctx fresh_state get_locus_data make_locus_data ld_matches].
  pose proof (existsb_xsc_cats (map fst (catalog_match_set (li_matches (get_locus_input alert_id)))))
    as Hx.
  destruct (existsb (fun c => existsb (String.eqb c) xsc_cats)
              (map fst (catalog_match_set (li_matches (get_locus_input alert_id))))).
  - destruct Hx as [Hx _]. destruct (Hx eq_refl) as [c [Hc Hxsc]].
    apply catalog_match_set_names in Hc as [r Hr].
    repeat split; auto.
    exists c, r. split; assumption.
  - repeat split; auto; [ discriminate | ].
    intros [c [r [Hr Hxsc]]]. destruct Hx as [_ Hx].
    assert (Hc : In c (map fst (catalog_match_set (li_matches (get_locus_input alert_id)))))
      by (apply catalog_match_set_names; exists r; exact Hr).
    discriminate (Hx (ex_intro _ c (conj Hc Hxsc))).
Qed.

Lemma mapM_run_stage_output (get_locus_input : Z -> locus_input) (f : filter_fn)
    (ids : list Z) (out : list string) :
  snd (mapM (fun alert_id => run_stage get_locus_input alert_id f) ids out)
  = out ++ List.concat (map (fun a => stdout (snd (f (fresh_state get_locus_input a)))) ids).
Proof.
  revert out. induction ids as [ | a ids IH ]; intros out; simpl.
  - rewrite app_nil_r. reflexivity.
  - unfold bind at 1. unfold run_stage at 1.
    destruct (f (fresh_state get_locus_input a)) as [r s]. cbn [snd].
    unfold bind. specialize (IH (out ++ stdout s)).
    destruct (mapM (fun alert_id => run_stage get_locus_input alert_id f) ids (out ++ stdout s))
      as [[ | ] out'];
      cbn [snd] in IH |- *; rewrite IH, app_assoc; reflexivity.
Qed.

(** [run_many] passes on everything the filter printed, one invocation after
    the other in the order of the alert ids, including what an invocation
    printed before it raised. *)
Theorem run_many_output_in_order (get_locus_input : Z -> locus_input)
    (get_alert_ids : Z -> list Z) (f : filter_fn) (n : Z) (out : list string) :
  snd (run_many get_locus_input get_alert_ids f n out)
  = out ++ List.concat (map (fun a => stdout (snd (f (fresh_state get_locus_input a))))
                       (get_alert_ids n)).
Proof. apply mapM_run_stage_output. Qed.

(** The printing loop of [example_filter] only prints: for each catalog an
    empty line, the catalog name and each of its matches. *)
Lemma print_objects (str_dict : pydict -> string) (objs : list match_record) (s : fstate) :
  fold_right (fun obj k' => print (str_dict obj) ;; k') (ret tt) objs s
  = (Ok tt, {| ctx := ctx s; stdout := stdout s ++ map str_dict objs |}).
Proof.
  revert s. induction objs as [ | o objs IH ]; intros s; simpl.
  - rewrite app_nil_r. destruct s. reflexivity.
  - unfold bind at 1, print at 1. rewrite IH. cbn [ctx stdout].
    rewrite <- app_assoc. reflexivity.
Qed.

Lemma print_catalog_matches_prints (str_dict : pydict -> string)
    (ms : list (string * list match_record)) (s : fstate) :
  print_catalog_matches str_dict ms s
  = (Ok tt, {| ctx := ctx s;
               stdout := stdout s ++ List.concat (map (fun cm =>
                           EmptyString :: fst cm :: map str_dict (snd cm)) ms) |}).
Proof.
  unfold print_catalog_matches. revert s.
  induction ms as [ | cm ms IH ]; intros s; cbn [fold_right map List.concat].
  - rewrite app_nil_r. destruct s. reflexivity.
  - unfold bind at 1, print_empty, print at 1. unfold bind at 1, print at 1.
    unfold bind at 1. rewrite print_objects. rewrite IH. cbn [ctx stdout].
    rewrite <- !app_assoc. reflexivity.
Qed.

(** A run of [example_filter] on a history that knows the fields it asks for. *)
Lemma example_filter_run_known (str_dict : pydict -> string)
    (str_time_series : list (string * list cell) -> string)
    (str_matches : list (string * list match_record) -> string)
    (str_names : list string -> string) (s : fstate) :
  forallb (field_known (ld_time_series (ctx s))) ["ra"; "dec"; "ztf_fid"; "ztf_magpsf"] = true ->
  exists lines,
    example_filter str_dict str_time_series str_matches str_names s
    = (Ok tt,
       {| ctx := add_stream "my_stream"
                   (set_new_properties (ctx s)
                      (dict_set "z" (PStr "hello")
                         (dict_set "y" (PFloat 3.14)
                            (dict_set "x" (PInt 500) (ld_new_properties (ctx s))))));
          stdout := stdout s ++ "`example_filter` is running..." :: lines
                    ++ ["`example_filter` is finished."] |}).
Proof.
  intros Hk. apply find_none_forallb in Hk.
  unfold example_filter, print_empty, bind, print, get_properties, get_time_series,
    get_astro_object_matches, lift, ret.
  cbn [ctx stdout]. repeat (rewrite Hk; cbn [ctx stdout ld_matches]).
  rewrite print_catalog_matches_prints.
  unfold set_property, send_to_stream, with_ctx.
  cbn [is_scalar ctx stdout set_new_properties ld_new_properties].
  rewrite <- !app_assoc. cbn [app]. rewrite !app_comm_cons.
  eexists. reflexivity.
Qed.

(** A run of [example_filter] on a history that lacks a field it asks for. *)
Lemma example_filter_run_unknown (str_dict : pydict -> string)
    (str_time_series : list (string * list cell) -> string)
    (str_matches : list (string * list match_record) -> string)
    (str_names : list string -> string) (s : fstate) :
  forallb (field_known (ld_time_series (ctx s))) ["ra"; "dec"; "ztf_fid"; "ztf_magpsf"] = false ->
  exists g,
    In g ["ra"; "dec"; "ztf_fid"; "ztf_magpsf"]
    /\ field_known (ld_time_series (ctx s)) g = false
    /\ fst (example_filter str_dict str_time_series str_matches str_names s)
       = Raise (UnknownFieldError g)
    /\ ctx (snd (example_filter str_dict str_time_series str_matches str_names s)) = ctx s.
Proof.
  intros Hk.
  destruct (find (fun f => negb (field_known (ld_time_series (ctx s)) f))
              ["ra"; "dec"; "ztf_fid"; "ztf_magpsf"]) as [g | ] eqn:Hf.
  - destruct (find_some_unknown _ _ _ Hf) as [Hin Hg].
    exists g. split; [ exact Hin | split; [ exact Hg | ] ].
    unfold example_filter, print_empty, bind, print, get_properties, get_time_series.
    cbn [ctx stdout]. rewrite Hf. split; reflexivity.
  - apply find_none_forallb in Hf. congruence.
Qed.

(** [example_filter] on a context whose history knows the four fields it asks
    for: it returns normally; it first prints its start line and last its end
    line, keeping what was printed before; it sets [x = 500], [y = 3.14] and
    [z = 'hello'] in this order on top of the properties already set, and
    then requests ['my_stream']; the alert, the history and the matches are
    left as they were. *)
Theorem example_filter_known_fields (str_dict : pydict -> string)
    (str_time_series : list (string * list cell) -> string)
    (str_matches : list (string * list match_record) -> string)
    (str_names : list string -> string) (s : fstate) :
  forallb (field_known (ld_time_series (ctx s))) ["ra"; "dec"; "ztf_fid"; "ztf_magpsf"] = true ->
  exists lines,
    example_filter str_dict str_time_series str_matches str_names s
    = (Ok tt,
       {| ctx := add_stream "my_stream"
                   (set_new_properties (ctx s)
                      (dict_set "z" (PStr "hello")
                         (dict_set "y" (PFloat 3.14)
                            (dict_set "x" (PInt 500) (ld_new_properties (ctx s))))));
          stdout := stdout s ++ "`example_filter` is running..." :: lines
                    ++ ["`example_filter` is finished."] |}).
Proof. apply example_filter_run_known. Qed.

(** [example_filter] on a context whose history lacks one of the four fields
    it asks for: the first [get_time_series] call raises [UnknownFieldError]
    for such a field, before any property is set or any stream requested. *)
Theorem example_filter_unknown_field (str_dict : pydict -> string)
    (str_time_series : list (string * list cell) -> string)
    (str_matches : list (string * list match_record) -> string)
    (str_names : list string -> string) (s : fstate) :
  forallb (field_known (ld_time_series (ctx s))) ["ra"; "dec"; "ztf_fid"; "ztf_magpsf"] = false ->
  exists g,
    In g ["ra"; "dec"; "ztf_fid"; "ztf_magpsf"]
    /\ field_known (ld_time_series (ctx s)) g = false
    /\ fst (example_filter str_dict str_time_series str_matches str_names s)
       = Raise (UnknownFieldError g)
    /\ ctx (snd (example_filter str_dict str_time_series str_matches str_names s)) = ctx s.
Proof. apply example_filter_run_unknown. Qed.

(** [results = run_many(example_filter, n=10)]: one result per alert id, in
    order; for an alert whose history knows the four requested fields, the
    report of a fresh context with the properties [x], [y], [z] and the
    stream ['my_stream'] added; for any other alert, a
    [FilterExecutionError] wrapping [UnknownFieldError] for a missing
    field. *)
Theorem run_many_example_filter (str_dict : pydict -> string)
    (str_time_series : list (string * list cell) -> string)
    (str_matches : list (string * list match_record) -> string)
    (str_names : list string -> string)
    (get_locus_input : Z -> locus_input) (get_alert_ids : Z -> list Z)
    (n : Z) (out : list string) :
  exists rs out',
    run_many get_locus_input get_alert_ids
      (example_filter str_dict str_time_series str_matches str_names) n out = (Ok rs, out')
    /\ List.length rs = List.length (get_alert_ids n)
    /\ forall i alert_id, nth_error (get_alert_ids n) i = Some alert_id ->
       let inp := get_locus_input alert_id in
       (forallb (field_known (li_history inp)) ["ra"; "dec"; "ztf_fid"; "ztf_magpsf"] = true ->
        nth_error rs i
        = Some (Report (stage_report
                  {| ld_alert := li_alert inp; ld_time_series := li_history inp;
                     ld_matches := catalog_match_set (li_matches inp);
                     ld_new_properties := [("x", PInt 500); ("y", PFloat 3.14);
                                           ("z", PStr "hello")];
                     ld_new_streams := ["my_stream"] |})))
       /\ (forallb (field_known (li_history inp)) ["ra"; "dec"; "ztf_fid"; "ztf_magpsf"] = false ->
           exists g, In g ["ra"; "dec"; "ztf_fid"; "ztf_magpsf"]
             /\ field_known (li_history inp) g = false
             /\ nth_error rs i = Some (FilterExecutionError (UnknownFieldError g))).
Proof.
  set (f := example_filter str_dict str_time_series str_matches str_names).
  destruct (mapM_run_stage get_locus_input f (get_alert_ids n) out) as [out' H].
  exists (map (stage_outcome get_locus_input f) (get_alert_ids n)), out'.
  split; [ exact H | split; [ apply length_map | ] ].
  intros i alert_id Hi. cbv zeta. rewrite nth_error_map, Hi. cbn [option_map].
  unfold stage_outcome. split; intros Hk.
  - destruct (example_filter_run_known str_dict str_time_series str_matches str_names
                (fresh_state get_locus_input alert_id) Hk) as [lines E].
    subst f. rewrite E. reflexivity.
  - destruct (example_filter_run_unknown str_dict str_time_series str_matches str_names
                (fresh_state get_locus_input alert_id) Hk) as [g [Hin [Hg [Hf _]]]].
    exists g. split; [ exact Hin | split; [ exact Hg | ] ].
    subst f. destruct (example_filter str_dict str_time_series str_matches str_names
                         (fresh_state get_locus_input alert_id)) as [r s'].
    cbn [fst] in Hf. subst r. reflexivity.
Qed.

(** ** Witnesses of the further properties *)

Lemma science_filters_first_missing_key_witness :
  In (nuclear_transient, ["ztf_sgscore1"; "ztf_distpsnr1"; "ztf_magpsf"; "ztf_magnr"; "ztf_distnr"])
     [(high_snr, ["ztf_fid"; "ztf_sigmapsf"]);
      (nuclear_transient, ["ztf_sgscore1"; "ztf_distpsnr1"; "ztf_magpsf";
                           "ztf_magnr"; "ztf_distnr"]);
      (in_m31, ["ra"; "dec"])]
  /\ Forall (fun k' => dict_get k' (props_of (sample_ctx [("ztf_sgscore1", PFloat 0.1);
                                                         ("ztf_distpsnr1", PFloat 0.5)])) <> None)
       ["ztf_sgscore1"; "ztf_distpsnr1"]
  /\ dict_get "ztf_magpsf" (props_of (sample_ctx [("ztf_sgscore1", PFloat 0.1);
                                                  ("ztf_distpsnr1", PFloat 0.5)])) = None
  /\ nuclear_transient (sample_ctx [("ztf_sgscore1", PFloat 0.1); ("ztf_distpsnr1", PFloat 0.5)])
     = (Raise (KeyError "ztf_magpsf"),
        sample_ctx [("ztf_sgscore1", PFloat 0.1); ("ztf_distpsnr1", PFloat 0.5)]).
Proof.
  assert (Hin : In (nuclear_transient, ["ztf_sgscore1"; "ztf_distpsnr1"; "ztf_magpsf";
                                        "ztf_magnr"; "ztf_distnr"])
                   [(high_snr, ["ztf_fid"; "ztf_sigmapsf"]);
                    (nuclear_transient, ["ztf_sgscore1"; "ztf_distpsnr1"; "ztf_magpsf";
                                         "ztf_magnr"; "ztf_distnr"]);
                    (in_m31, ["ra"; "dec"])]) by (right; left; reflexivity).
  assert (Hpre : Forall (fun k' => dict_get k' (props_of (sample_ctx
                   [("ztf_sgscore1", PFloat 0.1); ("ztf_distpsnr1", PFloat 0.5)])) <> None)
                   ["ztf_sgscore1"; "ztf_distpsnr1"])
    by (repeat constructor; discriminate).
  split; [ exact Hin | split; [ exact Hpre | split; [ reflexivity | ] ] ].
  exact (science_filters_first_missing_key
           (sample_ctx [("ztf_sgscore1", PFloat 0.1); ("ztf_distpsnr1", PFloat 0.5)]) _ _ ["ztf_sgscore1"; "ztf_distpsnr1"]
           ["ztf_magnr"; "ztf_distnr"] "ztf_magpsf" Hin eq_refl Hpre eq_refl).
Defined.

Lemma high_snr_zero_sigmapsf_witness :
  dict_get "ztf_fid" (props_of (sample_ctx [("ztf_fid", PInt 2);
                                           ("ztf_sigmapsf", PFloat (PrimFloat.opp 0))]))
  = Some (PInt 2)
  /\ dict_get "ztf_sigmapsf" (props_of (sample_ctx [("ztf_fid", PInt 2);
                                                   ("ztf_sigmapsf", PFloat (PrimFloat.opp 0))]))
     = Some (PFloat (PrimFloat.opp 0))
  /\ (PFloat (PrimFloat.opp 0) = PInt 0
      \/ exists z, PFloat (PrimFloat.opp 0) = PFloat z /\ PrimFloat.eqb z 0%float = true)
  /\ high_snr (sample_ctx [("ztf_fid", PInt 2); ("ztf_sigmapsf", PFloat (PrimFloat.opp 0))])
     = (Raise ZeroDivisionError,
        sample_ctx [("ztf_fid", PInt 2); ("ztf_sigmapsf", PFloat (PrimFloat.opp 0))]).
Proof.
  assert (Hz : PFloat (PrimFloat.opp 0) = PInt 0
               \/ exists z, PFloat (PrimFloat.opp 0) = PFloat z /\ PrimFloat.eqb z 0%float = true)
    by (right; exists (PrimFloat.opp 0); split; reflexivity).
  split; [ reflexivity | split; [ reflexivity | split; [ exact Hz | ] ] ].
  exact (high_snr_zero_sigmapsf
           (sample_ctx [("ztf_fid", PInt 2); ("ztf_sigmapsf", PFloat (PrimFloat.opp 0))])
           (PInt 2) (PFloat (PrimFloat.opp 0)) eq_refl eq_refl Hz).
Defined.

Lemma high_snr_other_band_witness :
  dict_get "ztf_fid" (props_of (sample_ctx [("ztf_fid", PInt 3); ("ztf_sigmapsf", PFloat 0.01)]))
  = Some (PInt 3)
  /\ dict_get "ztf_sigmapsf" (props_of (sample_ctx [("ztf_fid", PInt 3);
                                                   ("ztf_sigmapsf", PFloat 0.01)]))
     = Some (PFloat 0.01)
  /\ PrimFloat.eqb 0.01 0%float = false
  /\ (3 <> 1 /\ 3 <> 2)
  /\ high_snr (sample_ctx [("ztf_fid", PInt 3); ("ztf_sigmapsf", PFloat 0.01)])
     = (Ok tt, sample_ctx [("ztf_fid", PInt 3); ("ztf_sigmapsf", PFloat 0.01)]).
Proof.
  assert (Hb : 3 <> 1 /\ 3 <> 2) by lia.
  split; [ reflexivity | split; [ reflexivity | split; [ reflexivity | split; [ exact Hb | ] ] ] ].
  exact (high_snr_other_band
           (sample_ctx [("ztf_fid", PInt 3); ("ztf_sigmapsf", PFloat 0.01)]) (PInt 3) 0.01 eq_refl eq_refl eq_refl Hb).
Defined.

Lemma nuclear_transient_short_circuit_witness :
  let s := sample_ctx [("ztf_sgscore1", PStr "n/a"); ("ztf_distpsnr1", PFloat 0.5);
                       ("ztf_magpsf", PFloat 18.0); ("ztf_magnr", PInt 17);
                       ("ztf_distnr", PFloat 0.9)] in
  dict_get "ztf_sgscore1" (props_of s) = Some (PStr "n/a")
  /\ dict_get "ztf_distpsnr1" (props_of s) = Some (PFloat 0.5)
  /\ dict_get "ztf_magpsf" (props_of s) = Some (PFloat 18.0)
  /\ dict_get "ztf_magnr" (props_of s) = Some (PInt 17)
  /\ dict_get "ztf_distnr" (props_of s) = Some (PFloat 0.9)
  /\ py_lt (PFloat 0.9) (PFloat 0.6) = Ok false
  /\ nuclear_transient s = (Ok tt, s).
Proof.
  intros s.
  split; [ reflexivity | split; [ reflexivity | split; [ reflexivity | ] ] ].
  split; [ reflexivity | split; [ reflexivity | split; [ reflexivity | ] ] ].
  exact (nuclear_transient_short_circuit s (PStr "n/a") (PFloat 0.5) (PFloat 18.0) (PInt 17)
           (PFloat 0.9) eq_refl eq_refl eq_refl eq_refl eq_refl (or_intror eq_refl)).
Defined.

Lemma nuclear_transient_distnr_type_error_witness :
  let s := sample_ctx [("ztf_sgscore1", PFloat 0.1); ("ztf_distpsnr1", PFloat 0.5);
                       ("ztf_magpsf", PFloat 18.0); ("ztf_magnr", PInt 17);
                       ("ztf_distnr", PStr "0.2")] in
  dict_get "ztf_sgscore1" (props_of s) = Some (PFloat 0.1)
  /\ dict_get "ztf_distpsnr1" (props_of s) = Some (PFloat 0.5)
  /\ dict_get "ztf_magpsf" (props_of s) = Some (PFloat 18.0)
  /\ dict_get "ztf_magnr" (props_of s) = Some (PInt 17)
  /\ dict_get "ztf_distnr" (props_of s) = Some (PStr "0.2")
  /\ none_in [PFloat 0.5; PFloat 0.1; PFloat 18.0; PInt 17] = false
  /\ nuclear_transient s = (Raise TypeError, s).
Proof.
  intros s.
  split; [ reflexivity | split; [ reflexivity | split; [ reflexivity | ] ] ].
  split; [ reflexivity | split; [ reflexivity | split; [ reflexivity | ] ] ].
  exact (nuclear_transient_distnr_type_error s (PFloat 0.1) (PFloat 0.5) (PFloat 18.0) (PInt 17)
           (PStr "0.2") eq_refl eq_refl eq_refl eq_refl eq_refl eq_refl I).
Defined.

Lemma in_m31_ra_first_witness :
  dict_get "ra" (props_of (sample_ctx [("ra", PFloat 12.0); ("dec", PNone)])) = Some (PFloat 12.0)
  /\ dict_get "dec" (props_of (sample_ctx [("ra", PFloat 12.0); ("dec", PNone)])) = Some PNone
  /\ py_gt (PFloat ra_max) (PFloat 12.0) = Ok false
  /\ in_m31 (sample_ctx [("ra", PFloat 12.0); ("dec", PNone)])
     = (Ok tt, sample_ctx [("ra", PFloat 12.0); ("dec", PNone)])
  /\ in_m31 (sample_ctx [("ra", PStr "10.5"); ("dec", PFloat 41.0)])
     = (Raise TypeError, sample_ctx [("ra", PStr "10.5"); ("dec", PFloat 41.0)]).
Proof.
  split; [ reflexivity | split; [ reflexivity | split; [ reflexivity | split ] ] ].
  - exact (proj1 (in_m31_ra_first (sample_ctx [("ra", PFloat 12.0); ("dec", PNone)])
                   (PFloat 12.0) PNone eq_refl eq_refl) eq_refl).
  - exact (proj2 (in_m31_ra_first (sample_ctx [("ra", PStr "10.5"); ("dec", PFloat 41.0)])
                   (PStr "10.5") (PFloat 41.0) eq_refl eq_refl) I).
Defined.

Lemma example_filter_known_fields_witness :
  forallb (field_known (ld_time_series (ctx example_state)))
    ["ra"; "dec"; "ztf_fid"; "ztf_magpsf"] = true
  /\ exists lines,
       example_filter show_nothing show_nothing show_nothing show_nothing example_state
       = (Ok tt,
          {| ctx := add_stream "my_stream"
                      (set_new_properties (ctx example_state)
                         (dict_set "z" (PStr "hello")
                            (dict_set "y" (PFloat 3.14)
                               (dict_set "x" (PInt 500)
                                  (ld_new_properties (ctx example_state))))));
             stdout := stdout example_state ++ "`example_filter` is running..." :: lines
                       ++ ["`example_filter` is finished."] |}).
Proof.
  split; [ reflexivity | ].
  exact (example_filter_known_fields show_nothing show_nothing show_nothing show_nothing
           example_state eq_refl).
Defined.

Lemma example_filter_unknown_field_witness :
  forallb (field_known (ld_time_series (ctx (sample_ctx [("ra", PFloat 10.7)]))))
    ["ra"; "dec"; "ztf_fid"; "ztf_magpsf"] = false
  /\ exists g,
       In g ["ra"; "dec"; "ztf_fid"; "ztf_magpsf"]
       /\ field_known (ld_time_series (ctx (sample_ctx [("ra", PFloat 10.7)]))) g = false
       /\ fst (example_filter show_nothing show_nothing show_nothing show_nothing
                (sample_ctx [("ra", PFloat 10.7)]))
          = Raise (UnknownFieldError g)
       /\ ctx (snd (example_filter show_nothing show_nothing show_nothing show_nothing
                      (sample_ctx [("ra", PFloat 10.7)])))
          = ctx (sample_ctx [("ra", PFloat 10.7)]).
Proof.
  split; [ reflexivity | ].
  exact (example_filter_unknown_field show_nothing show_nothing show_nothing show_nothing
           (sample_ctx [("ra", PFloat 10.7)]) eq_refl).
Defined.
